(* ===== verification/_CoqProject ===== *)
-Q . S2P
Prelude.v
JsCore.v
Supabase.v
Scoring.v
ArraySort.v
Ranking.v
LeaderboardPage.v
LeaderboardView.v
TopNav.v
Sidebar.v
Dashboard.v
