(* ===== verification/Prelude.v ===== *)
(** * Verification of the leaderboard dashboard (bajaj-hackathon-frontend)

    ** The program
    Three React components under src/src/pages/:
    - Leaderboard.jsx: [calculatePoints]; the [Leaderboard] component
      with two state hooks ([leaderboardData], [userName]), an effect
      running [fetchUsername] (getUser, then the user's name from
      [registered_trackies]) and an effect on [[userName]] running
      [fetchLeaderboardData] (all rows, [data.map] to entries with points
      and [isUser], [sort] by points, [forEach] rank assignment); the
      rendering with [getTrophyColor], the podium and the list.
    - TopNav.jsx: name and streak of the signed-in user, the profile
      popup toggled by the User button, [handleLogout].
    - Sidebar.jsx: the menu; the active tab is the parent's state.
    The components talk to the backend only through the Supabase client
    (not in the repository); the Leaderboard's effects interact through
    its [userName] state: setting it re-runs the leaderboard effect.

    ** Files (in dependency order)
    - [Prelude] (this file): the scope [lb_scope] with [a ⊒[key] b]
      (descending order on a numeric key), [key_class] (the elements of
      one key, in order), the hint databases [lb] / [lb_rw], and the
      list lemmas the components share, among them
      [sorted_key_classes_unique]: a list sorted by key is determined by
      its key classes.
    - [JsCore]: the JavaScript semantics the code relies on: [null] as 0
      in arithmetic ([num_of]), truthiness and [||] ([js_or_str],
      [js_or_num]), [===] on nullable strings.
    - [Supabase]: the settled outcomes of the client's calls
      ([auth_response], [query_response], [signout_response]): the
      interface between the components and the external backend.
    - [Scoring] (Module [Scoring]): [calculatePoints] (Leaderboard.jsx
      6-11) on [number | null] arguments, with its discarded half-weight
      term, and the documented formula [calculatePoints_documented].
    - [ArraySort]: the ECMAScript contract of [Array.prototype.sort] for a
      comparator [(a, b) => key(b) - key(a)] as the class [ArraySort]
      (abstract specification [stable_sorted]); [InsertionSort] is an
      engine meeting it ([insertion_sort_engine]), which the concrete
      instances of the theorems compute with.
    - [Ranking] (Module [Ranking], Modules [Row] and [Entry] for the
      selected row and the built object): [to_entry], [points_comparator],
      [assign_ranks] and [build_leaderboard] (Leaderboard.jsx 54-66),
      stated for any engine through a Section [Context `{ArraySort}].
    - [LeaderboardPage] (Module [LeaderboardPage]): the component's state
      ([leaderboardData], [userName], where [fetchUsername] is suspended,
      the [userName] captured by each in-flight [fetchLeaderboardData]);
      [step] applies one settlement (getUser, the profile query, the
      [i]-th pending leaderboard query), [run] a sequence of them,
      [reachable] is the step relation's closure from [mount].
    - [LeaderboardView]: [getTrophyColor], the podium cards and list rows
      computed from the state ([render]).
    - [TopNav] (Module [TopNav]): state, [step] over getUser / row query /
      User button / Logout button / [signOut] settlements, [reachable].
    - [Sidebar] (Module [Sidebar]): [menuItems], the rendered buttons for
      an [activeTab], and the value each button passes to [setActiveTab].
    - [Dashboard]: the two components that resolve the user's name,
      related through [profile_of] (the same row seen by both queries).

    ** What is proved
    - Ranking: with ranks erased the leaderboard is the stable sort of
      the mapped rows by points, largest first (C1); ranks are exactly
      1..n (C2); a higher score gets a smaller rank (C3); [isUser] is
      exact string equality (C4); with distinct scores the row order of
      the response does not matter (C10); with [userName = ""] a row
      named [""] is marked (C11).
    - Effects: the stale-response race (C5) and what the user then sees,
      no "(You)" label (C7), against in-order delivery, where the label
      is on exactly the rows showing the resolved name (C8, C12); the
      invariant of reachable states (C6); [fetchUsername]'s branches
      (C13); at most four settlements ever (C14).
    - Scoring: the unused half weight, the returned score being the
      documented formula plus half a point per jumping jack (C9);
      exactness in doubles (C15).
    - Rendering: unique React keys (C16), podium medals and crown (C17).
    - TopNav: [fetchUserData]'s branches (C18), logout outcomes (C19),
      popup toggling (C20), the header's invariant (C21).
    - Sidebar: highlighting after a click (C22).
    - Across components: TopNav's name and the Leaderboard's [userName]
      agree on the same answers (C23).

    ** Bounds and modelling choices
    JavaScript numbers are modelled as [Z]: the counters are integers and
    C15 shows that for [int4] columns every score and every comparator
    difference stays below [Number.MAX_SAFE_INTEGER] (2^53 - 1), where
    double arithmetic on integers is exact. No fuel is needed: every
    function is structural, and the asynchronous behaviour is a step
    function whose runs are bounded (C14, by the measure [potential]).
    Interleaving is explicit: the environment picks the next settlement,
    so every arrival order of the responses is covered.

    ** Plan for the development
    Done: the ranking core (Scoring, ArraySort, Ranking), the
    Leaderboard's effects and view, TopNav, Sidebar, and the agreement
    of the two components on the user's name. Next: the two components
    under interleaved answers (C23 covers the same answers); more
    automation in the [lb] databases as the proofs grow.

    ** Not modelled
    The Supabase client and the database (external: their answers are
    inputs); [console.error] logging; animation props, icons' SVG and
    layout-only class names; React's StrictMode double effects in
    development and updates after unmount; [window.location.reload]
    beyond the fact that the page is replaced (TopNav's [reloaded]). *)

From stdpp Require Export base list sorting strings numbers.
From Stdlib Require Export ZArith Lia.

Declare Scope lb_scope.
Delimit Scope lb_scope with lb.
Open Scope Z_scope.

(** ** Descending order on a numeric key *)

(** [a ⊒[key] b]: [a] may stand before [b] in a list sorted by [key],
    largest first. *)
Definition desc_by {A} (key : A -> Z) : relation A := fun a b => key b <= key a.
Notation "a ⊒[ key ] b" := (desc_by key a b)
  (at level 70, key at level 200, format "a  ⊒[ key ]  b") : lb_scope.
Open Scope lb_scope.

(** The elements of [l] whose key is [k], in their order in [l]. *)
Definition key_class {A} (key : A -> Z) (k : Z) (l : list A) : list A :=
  filter (fun x => key x = k) l.

Create HintDb lb discriminated.
Create Rewrite HintDb lb_rw.

(** Unfold a definition whose body names its steps with [let], as the
    source's [const] bindings do, and substitute the steps. *)
Tactic Notation "unfold_let" reference(f) := unfold f; cbv zeta.

Section DescBy.
Context {A : Type} (key : A -> Z).

#[export] Instance desc_by_dec : RelDecision (desc_by key).
Proof. intros a b. unfold desc_by. apply _. Defined.

#[export] Instance desc_by_trans : Transitive (desc_by key).
Proof. intros a b c; unfold desc_by; lia. Qed.

#[export] Instance desc_by_total : Total (desc_by key).
Proof. intros a b; unfold desc_by; lia. Qed.

Lemma key_class_cons_eq k x l :
  key x = k -> key_class key k (x :: l) = x :: key_class key k l.
Proof. intros Hk. unfold key_class. rewrite filter_cons. by case_decide. Qed.

Lemma key_class_cons_ne k x l :
  key x <> k -> key_class key k (x :: l) = key_class key k l.
Proof. intros Hk. unfold key_class. rewrite filter_cons. by case_decide. Qed.

Lemma elem_of_key_class k x l : x ∈ key_class key k l <-> key x = k /\ x ∈ l.
Proof. unfold key_class. by rewrite list_elem_of_filter. Qed.

(** A list sorted largest-first has its maximum at the head. *)
Lemma sorted_desc_head_max x l y :
  Sorted (desc_by key) (x :: l) -> y ∈ x :: l -> key y <= key x.
Proof.
  intros Hs Hy. apply (Sorted_StronglySorted _) in Hs.
  apply StronglySorted_cons in Hs as [Hf _].
  apply elem_of_cons in Hy as [->|Hy]; [lia|].
  rewrite list.Forall_forall in Hf. exact (Hf y Hy).
Qed.

(** Two lists sorted largest-first whose key classes agree are equal:
    the order of a stable sort is fixed by the classes alone. *)
Lemma sorted_key_classes_unique l1 l2 :
  Sorted (desc_by key) l1 -> Sorted (desc_by key) l2 ->
  (forall k, key_class key k l1 = key_class key k l2) -> l1 = l2.
Proof.
  revert l2. induction l1 as [|x l1 IH]; intros [|y l2] H1 H2 Hc; [done| | |].
  - specialize (Hc (key y)). rewrite key_class_cons_eq in Hc; done.
  - specialize (Hc (key x)). rewrite key_class_cons_eq in Hc; done.
  - assert (key x = key y) as Exy.
    { assert (x ∈ y :: l2) as Hx.
      { eapply elem_of_key_class. rewrite <-Hc.
        rewrite key_class_cons_eq; [left|]; done. }
      assert (y ∈ x :: l1) as Hy.
      { eapply elem_of_key_class. rewrite Hc.
        rewrite key_class_cons_eq; [left|]; done. }
      pose proof (sorted_desc_head_max _ _ _ H1 Hy).
      pose proof (sorted_desc_head_max _ _ _ H2 Hx). lia. }
    pose proof (Hc (key x)) as Hx.
    rewrite !key_class_cons_eq in Hx by done.
    injection Hx as <- Hx. f_equal.
    apply IH; [by inversion H1 | by inversion H2 |].
    intros k. destruct (decide (key x = k)) as [<-|Hk]; [done|].
    specialize (Hc k). by rewrite !key_class_cons_ne in Hc.
Qed.

(** With pairwise distinct keys a class holds at most one element, so
    a permutation does not change it. *)
Lemma key_class_length_nodup k l :
  NoDup (key <$> l) -> (length (key_class key k l) <= 1)%nat.
Proof.
  induction l as [|x l IH]; simpl; intros Hnd; [lia|].
  apply list.NoDup_cons in Hnd as [Hx Hnd].
  destruct (decide (key x = k)) as [<-|Hk].
  - rewrite key_class_cons_eq by done.
    destruct (key_class key (key x) l) as [|y c] eqn:E; simpl; [lia|].
    exfalso. apply Hx. assert (y ∈ key_class key (key x) l) as Hy by (rewrite E; left).
    apply elem_of_key_class in Hy as [Hy Hin]. rewrite <-Hy.
    by apply list_elem_of_fmap_2.
  - rewrite key_class_cons_ne by done. by apply IH.
Qed.

Lemma key_class_perm_nodup k l1 l2 :
  NoDup (key <$> l1) -> l1 ≡ₚ l2 -> key_class key k l1 = key_class key k l2.
Proof.
  intros Hnd Hp.
  assert (key_class key k l1 ≡ₚ key_class key k l2) as Hc
    by (unfold key_class; by rewrite Hp).
  pose proof (key_class_length_nodup k l1 Hnd) as Hlen.
  destruct (key_class key k l1) as [|a [|b c]]; simpl in Hlen; [| |lia].
  - symmetry. by apply Permutation_nil.
  - apply Permutation_length_1_inv in Hc. by rewrite Hc.
Qed.
End DescBy.

(** Filtering a mapped list filters the original one. *)
Lemma filter_fmap_comm {A B} (P : B -> Prop) `{!forall x, Decision (P x)} (f : A -> B) (l : list A) :
  filter P (f <$> l) = f <$> filter (fun x => P (f x)) l.
Proof.
  induction l as [|x l IH]; [done|]. rewrite fmap_cons, !filter_cons.
  case_decide; by rewrite IH.
Qed.

(** Order of the elements of a strongly sorted list read by index. *)
Lemma StronglySorted_lookup {A} (R : relation A) l i j x y :
  StronglySorted R l -> l !! i = Some x -> l !! j = Some y -> (i < j)%nat -> R x y.
Proof.
  intros Hs. revert i j. induction Hs as [|z l Hs IH Hf]; intros i j Hi Hj Hij;
    [done|].
  destruct i as [|i], j as [|j]; simpl in *; try lia.
  - injection Hi as <-. rewrite list.Forall_forall in Hf.
    apply Hf. by eapply list_elem_of_lookup_2.
  - apply (IH i j); [done|done|lia].
Qed.
