(* ===== verification/JsCore.v ===== *)
(** * The fragment of JavaScript semantics the components rely on

    Values read from the backend are [number | null] or [string | null]:
    [option Z] and [option string], [None] standing for [null] (and for
    [undefined] produced by optional chaining [x?.f] on a null [x]).
    Numbers are integers here; [Scoring] shows the values stay in the
    range where IEEE doubles represent integers exactly. *)

From S2P Require Import Prelude.

(** [ToNumber] as used by [*] and [+]: [null] becomes [+0]. *)
Definition num_of (v : option Z) : Z :=
  match v with Some z => z | None => 0 end.

(** Truthiness of strings and numbers ([""], [0] and [null] are falsy). *)
Definition truthy_str (v : option string) : bool :=
  match v with Some s => negb (bool_decide (s = "")) | None => false end.
Definition truthy_num (v : option Z) : bool :=
  match v with Some z => negb (z =? 0) | None => false end.

(** [v || d] on a string and on a number. *)
Definition js_or_str (v : option string) (d : string) : string :=
  match v with Some s => if truthy_str v then s else d | None => d end.
Definition js_or_num (v : option Z) (d : Z) : Z :=
  match v with Some z => if truthy_num v then z else d | None => d end.

(** [v === s] between a nullable string and a string. *)
Definition strict_eq_str (v : option string) (s : string) : bool :=
  match v with Some t => bool_decide (t = s) | None => false end.
Notation "v === s" := (strict_eq_str v s) (at level 70) : lb_scope.

Lemma strict_eq_str_true v s : (v === s) = true <-> v = Some s.
Proof.
  destruct v as [t|]; simpl; [|done].
  rewrite bool_decide_eq_true. split; congruence.
Qed.

Lemma js_or_str_spec v d :
  js_or_str v d = match v with Some s => if bool_decide (s = "") then d else s | None => d end.
Proof. destruct v as [s|]; simpl; [by case_bool_decide|done]. Qed.

Lemma js_or_str_nonempty n d : n <> "" -> js_or_str (Some n) d = n.
Proof. intros Hn. rewrite js_or_str_spec. by case_bool_decide. Qed.

(** A non-empty default makes [v || d] non-empty. *)
Lemma js_or_str_User nm : js_or_str nm "User" <> "".
Proof. rewrite js_or_str_spec. destruct nm; [case_bool_decide|]; done. Qed.

(** For a number, [v || 0] is exactly [ToNumber v]. *)
Lemma js_or_num_zero v : js_or_num v 0 = num_of v.
Proof. destruct v as [z|]; simpl; [destruct (Z.eqb_spec z 0); simpl; lia|done]. Qed.

#[export] Hint Rewrite strict_eq_str_true js_or_num_zero : lb_rw.
