(* ===== verification/Supabase.v ===== *)
(** * What the components observe of the Supabase client

    The client ([./supabase], not in the repository) is external; the
    components only see the settled value of each awaited call. These
    types list the outcomes the source distinguishes: the [error] field
    set, the [data] field, or a rejected promise. *)

From S2P Require Import Prelude.

(** [supabase.auth.getUser()]: [{ error }], [{ data: { user: null } }],
    a user with its id, or a rejection. *)
Inductive auth_response :=
  | AuthError
  | AuthNoUser
  | AuthUser (user_id : string)
  | AuthThrows.

(** A [from(...).select(...)] query, [.single()] or not: [{ error }]
    (for [.single()] also when there is not exactly one row),
    [{ data }], or a rejection. *)
Inductive query_response (A : Type) :=
  | QError
  | QOk (data : A)
  | QThrows.
Arguments QError {A}.
Arguments QOk {A} data.
Arguments QThrows {A}.

(** [supabase.auth.signOut()]: [{ error: null }], [{ error }], or a
    rejection. *)
Inductive signout_response :=
  | SignOutOk
  | SignOutError
  | SignOutThrows.
