(* ===== verification/Scoring.v ===== *)
(** * Scoring: [calculatePoints] of src/src/pages/Leaderboard.jsx

    The point formula and its behaviour on the values the backend
    returns ([number | null]); the discarded half-weight term; and the
    range of the result, which keeps the double arithmetic exact. *)

From S2P Require Import Prelude JsCore.
From Stdlib Require Import QArith Lqa.
Local Open Scope Z_scope.

Module Scoring.

(** [calculatePoints(squats, pushups, jumpingJacks)]: the arguments are
    the raw columns, so [null] is possible and [*] / [+] coerce it to 0.
    [jumpingJackPoints] is computed and never used, as in the source. *)
Definition calculatePoints (squats pushups jumpingJacks : option Z) : Z :=
  let squatPoints := num_of squats * 1 in
  let pushupPoints := num_of pushups * 2 in
  let jumpingJackPoints := (inject_Z (num_of jumpingJacks) * (1 # 2))%Q in
  squatPoints + pushupPoints + num_of jumpingJacks.

(** The formula the comments of the source describe: half a point per
    jumping jack. *)
Definition calculatePoints_documented (squats pushups jumpingJacks : option Z) : Q :=
  (inject_Z (num_of squats) + inject_Z (num_of pushups) * 2
   + inject_Z (num_of jumpingJacks) * (1 # 2))%Q.

(** Largest integer a JavaScript number holds exactly. *)
Definition MAX_SAFE_INTEGER : Z := 2 ^ 53 - 1.

(** A column of the backend's [int4] type. *)
Definition int4 (v : option Z) : Prop :=
  match v with Some z => - 2 ^ 31 <= z < 2 ^ 31 | None => True end.

Lemma int4_num_of v : int4 v -> - 2 ^ 31 <= num_of v < 2 ^ 31.
Proof. destruct v; simpl; lia. Qed.

Lemma calculatePoints_eq s p j :
  calculatePoints s p j = num_of s + 2 * num_of p + num_of j.
Proof. unfold calculatePoints. lia. Qed.

(** C9: the jumping-jack term: the returned score counts each jumping
    jack at weight 1, so it equals the documented half-weight formula
    exactly when the jumping-jack count is zero. *)
Theorem calculatePoints_ignores_half_weight s p j :
  (inject_Z (calculatePoints s p j)
   == calculatePoints_documented s p j + inject_Z (num_of j) * (1 # 2))%Q
  /\ ((inject_Z (calculatePoints s p j) == calculatePoints_documented s p j)%Q
      <-> num_of j = 0).
Proof.
  unfold calculatePoints_documented. rewrite calculatePoints_eq.
  rewrite !inject_Z_plus, inject_Z_mult.
  change (inject_Z 2) with 2%Q.
  rewrite <-(inject_Z_injective (num_of j) 0). change (inject_Z 0) with 0%Q.
  generalize (inject_Z (num_of s)) (inject_Z (num_of p)) (inject_Z (num_of j)).
  intros x y z. split; [lra|split; intros; lra].
Qed.

(** C15: on [int4] columns the score, and the difference [b.points -
    a.points] the sort comparator computes, stay within
    [Number.MAX_SAFE_INTEGER]: the double arithmetic of the source is
    exact integer arithmetic there. *)
Theorem calculatePoints_safe_integer s p j s' p' j' :
  int4 s -> int4 p -> int4 j -> int4 s' -> int4 p' -> int4 j' ->
  Z.abs (calculatePoints s p j) <= MAX_SAFE_INTEGER
  /\ Z.abs (calculatePoints s' p' j' - calculatePoints s p j) <= MAX_SAFE_INTEGER.
Proof.
  intros Hs Hp Hj Hs' Hp' Hj'.
  apply int4_num_of in Hs, Hp, Hj, Hs', Hp', Hj'.
  rewrite !calculatePoints_eq. unfold MAX_SAFE_INTEGER. lia.
Qed.

Lemma calculatePoints_safe_integer_witness :
  Z.abs (calculatePoints (Some (2 ^ 31 - 1)) (Some (2 ^ 31 - 1)) (Some (2 ^ 31 - 1)))
    <= MAX_SAFE_INTEGER
  /\ Z.abs (calculatePoints None None None
            - calculatePoints (Some (2 ^ 31 - 1)) (Some (2 ^ 31 - 1)) (Some (2 ^ 31 - 1)))
    <= MAX_SAFE_INTEGER.
Proof. apply calculatePoints_safe_integer; simpl; lia. Defined.

End Scoring.
