(* ===== verification/ArraySort.v ===== *)
(** * The contract of [Array.prototype.sort] and an engine that meets it

    [leaderboard.sort(cmp)] in Leaderboard.jsx relies on the engine's
    sort. ECMAScript (since ES2019) requires it to be stable; for a
    comparator [(a, b) => key(b) - key(a)] this means: the result is a
    permutation of the input, ordered by [key] largest first, and
    elements of equal key keep their input order. [ArraySort] states
    that promise as a class, and [insertion_sort] is an instance of it,
    so the class is inhabited by a concrete engine. *)

From S2P Require Import Prelude.

(** The abstract specification: [o] is [l] stably sorted by [key],
    largest first. *)
Definition stable_sorted {A} (key : A -> Z) (l o : list A) : Prop :=
  o ≡ₚ l /\ Sorted (desc_by key) o /\ forall k, key_class key k o = key_class key k l.

(** The comparator shape [(a, b) => key(b) - key(a)]. *)
Definition desc_comparator {A} (key : A -> Z) : A -> A -> Z :=
  fun a b => key b - key a.

Class ArraySort := {
  array_sort : forall {A}, (A -> A -> Z) -> list A -> list A;
  array_sort_stable : forall {A} (key : A -> Z) (l : list A),
    stable_sorted key l (array_sort (desc_comparator key) l)
}.

Module InsertionSort.
Section InsertionSort.
Context {A : Type}.
Implicit Types (cmp : A -> A -> Z) (x : A) (l : list A).

(** Insert [x] before the first element it does not compare above. *)
Fixpoint insert_by cmp x l : list A :=
  match l with
  | [] => [x]
  | y :: l' => if cmp x y <=? 0 then x :: y :: l' else y :: insert_by cmp x l'
  end.

Definition insertion_sort cmp (l : list A) : list A :=
  foldr (insert_by cmp) [] l.

Context (key : A -> Z).
Local Abbreviation cmpk := (desc_comparator key).

Lemma insert_by_perm x l : insert_by cmpk x l ≡ₚ x :: l.
Proof.
  induction l as [|y l IH]; simpl; [done|].
  case_match; [done|]. rewrite IH. constructor.
Qed.

Lemma insert_by_sorted x l :
  Sorted (desc_by key) l -> Sorted (desc_by key) (insert_by cmpk x l).
Proof.
  induction 1 as [|y l Hl IH Hhd]; simpl; [by repeat constructor|].
  unfold desc_comparator. destruct (Z.leb_spec (key y - key x) 0).
  - constructor; [by constructor|]. constructor. unfold desc_by. lia.
  - constructor; [done|]. destruct l as [|z l]; simpl.
    + constructor. unfold desc_by. lia.
    + inversion Hhd; subst. unfold desc_comparator.
      destruct (Z.leb_spec (key z - key x) 0); constructor; unfold desc_by in *; lia.
Qed.

Lemma insert_by_class_eq x l :
  key_class key (key x) (insert_by cmpk x l) = x :: key_class key (key x) l.
Proof.
  induction l as [|y l IH]; simpl; [by rewrite key_class_cons_eq|].
  unfold desc_comparator. destruct (Z.leb_spec (key y - key x) 0).
  - by rewrite key_class_cons_eq.
  - rewrite !(key_class_cons_ne _ _ y) by lia. exact IH.
Qed.

Lemma insert_by_class_ne k x l :
  key x <> k -> key_class key k (insert_by cmpk x l) = key_class key k l.
Proof.
  intros Hk. induction l as [|y l IH]; simpl; [by rewrite key_class_cons_ne|].
  case_match; [by rewrite key_class_cons_ne|].
  destruct (decide (key y = k)).
  - by rewrite !key_class_cons_eq, IH.
  - by rewrite !key_class_cons_ne.
Qed.

Lemma insertion_sort_stable l : stable_sorted key l (insertion_sort cmpk l).
Proof.
  induction l as [|x l (IHp & IHs & IHc)]; simpl; [split_and!; by try constructor|].
  split_and!.
  - by rewrite insert_by_perm, IHp.
  - by apply insert_by_sorted.
  - intros k. destruct (decide (key x = k)) as [<-|Hk].
    + by rewrite insert_by_class_eq, key_class_cons_eq, IHc.
    + by rewrite insert_by_class_ne, key_class_cons_ne, IHc.
Qed.
End InsertionSort.
End InsertionSort.

#[export] Instance insertion_sort_engine : ArraySort := {
  array_sort := @InsertionSort.insertion_sort;
  array_sort_stable := @InsertionSort.insertion_sort_stable
}.
