(* ===== verification/Ranking.v ===== *)
(** * Ranking: the leaderboard computation of fetchLeaderboardData

    Leaderboard.jsx lines 54-66: each selected row becomes an entry with
    its points and its [isUser] flag ([data.map]); the array is sorted by
    [(a, b) => b.points - a.points]; [forEach] then writes [rank =
    index + 1] into every entry. The sort is the engine's, taken through
    the [ArraySort] interface, so the theorems hold for every engine that
    keeps the ECMAScript contract. *)

From S2P Require Import Prelude JsCore Scoring ArraySort.

Module Ranking.
Import Scoring.

(** A row of [registered_trackies] as selected by
    [select('name, total_squats, pushups, jumping_jacks')]. *)
Module Row.
Record t := mk {
  name : option string;
  total_squats : option Z;
  pushups : option Z;
  jumping_jacks : option Z
}.
End Row.

(** The object built for each row; [rank] is absent until [forEach]
    sets it. *)
Module Entry.
Record t := mk {
  name : option string;
  squats : option Z;
  pushups : option Z;
  jumpingJacks : option Z;
  points : Z;
  isUser : bool;
  rank : option nat
}.
End Entry.

#[export] Instance Row_eq_dec : EqDecision Row.t.
Proof. solve_decision. Defined.
#[export] Instance Entry_eq_dec : EqDecision Entry.t.
Proof. solve_decision. Defined.

(** The callback of [data.map]. *)
Definition to_entry (userName : string) (user : Row.t) : Entry.t :=
  {| Entry.name := Row.name user;
     Entry.squats := Row.total_squats user;
     Entry.pushups := Row.pushups user;
     Entry.jumpingJacks := Row.jumping_jacks user;
     Entry.points := calculatePoints (Row.total_squats user) (Row.pushups user)
                       (Row.jumping_jacks user);
     Entry.isUser := Row.name user === userName;
     Entry.rank := None |}.

(** The comparator [(a, b) => b.points - a.points]. *)
Definition points_comparator (a b : Entry.t) : Z := Entry.points b - Entry.points a.

(** [user.rank = r], an in-place write on an object only the array holds. *)
Definition set_rank (r : nat) (e : Entry.t) : Entry.t :=
  {| Entry.name := Entry.name e; Entry.squats := Entry.squats e;
     Entry.pushups := Entry.pushups e; Entry.jumpingJacks := Entry.jumpingJacks e;
     Entry.points := Entry.points e; Entry.isUser := Entry.isUser e;
     Entry.rank := Some r |}.

(** [leaderboard.forEach((user, index) => { user.rank = index + 1; })]. *)
Definition assign_ranks (leaderboard : list Entry.t) : list Entry.t :=
  imap (fun index user => set_rank (index + 1) user) leaderboard.

(** Lines 54-66: map, sort, rank. *)
Definition build_leaderboard `{ArraySort} (userName : string) (data : list Row.t)
    : list Entry.t :=
  let leaderboard := to_entry userName <$> data in
  let sorted := array_sort points_comparator leaderboard in
  assign_ranks sorted.

(** The entry with its rank erased, to compare with the mapped rows. *)
Definition unrank (e : Entry.t) : Entry.t :=
  {| Entry.name := Entry.name e; Entry.squats := Entry.squats e;
     Entry.pushups := Entry.pushups e; Entry.jumpingJacks := Entry.jumpingJacks e;
     Entry.points := Entry.points e; Entry.isUser := Entry.isUser e;
     Entry.rank := None |}.

(** ** Library lemmas *)

Lemma unrank_assign_ranks l : unrank <$> assign_ranks l = unrank <$> l.
Proof. unfold assign_ranks. rewrite fmap_imap, <-imap_const. by apply imap_ext. Qed.

Lemma rank_assign_ranks l :
  Entry.rank <$> assign_ranks l = (fun i => Some i) <$> seq 1 (length l).
Proof.
  unfold assign_ranks. rewrite fmap_imap, <-imap_seq.
  apply imap_ext. intros i x _. simpl. f_equal. lia.
Qed.

Lemma length_assign_ranks l : length (assign_ranks l) = length l.
Proof. apply length_imap. Qed.

Lemma unrank_unranked (l : list Entry.t) :
  Forall (fun e => Entry.rank e = None) l -> unrank <$> l = l.
Proof.
  induction 1 as [|e l Hr _ IH]; [done|]. rewrite fmap_cons, IH. destruct e; simpl in *; by subst.
Qed.

Lemma to_entry_unranked u (data : list Row.t) :
  Forall (fun e => Entry.rank e = None) (to_entry u <$> data).
Proof. apply Forall_fmap, Forall_true. done. Qed.

Lemma elem_of_assign_ranks e l :
  e ∈ assign_ranks l <-> exists i y, e = set_rank (i + 1) y /\ l !! i = Some y.
Proof. unfold assign_ranks. apply elem_of_lookup_imap. Qed.

Section WithEngine.
Context `{ArraySort}.

Lemma sorted_entries_stable u data :
  stable_sorted Entry.points (to_entry u <$> data)
    (array_sort points_comparator (to_entry u <$> data)).
Proof. apply array_sort_stable. Qed.

Lemma sorted_entries_unranked u data :
  Forall (fun e => Entry.rank e = None)
    (array_sort points_comparator (to_entry u <$> data)).
Proof.
  destruct (sorted_entries_stable u data) as (Hp & _ & _).
  rewrite Hp. apply to_entry_unranked.
Qed.

(** C1: with its ranks erased, the leaderboard is the mapped rows
    stably sorted by points, largest first: a permutation of them, in
    descending order of points, and with equal scores in the order the
    backend returned the rows. *)
Theorem build_leaderboard_stable_sort u data :
  stable_sorted Entry.points (to_entry u <$> data)
    (unrank <$> build_leaderboard u data).
Proof.
  unfold_let build_leaderboard. rewrite unrank_assign_ranks, unrank_unranked.
  - apply sorted_entries_stable.
  - apply sorted_entries_unranked.
Qed.

(** C2: the ranks are exactly [1, 2, ..., n] in array order, [n] the
    number of rows: one entry per row, no gap, no repetition. *)
Theorem build_leaderboard_ranks u data :
  Entry.rank <$> build_leaderboard u data = (fun i => Some i) <$> seq 1 (length data).
Proof.
  unfold_let build_leaderboard. rewrite rank_assign_ranks.
  destruct (sorted_entries_stable u data) as (Hp & _ & _).
  by rewrite Hp, length_fmap.
Qed.

Lemma elem_of_build_leaderboard u data e :
  e ∈ build_leaderboard u data <->
  exists i y, e = set_rank (i + 1) y
    /\ array_sort points_comparator (to_entry u <$> data) !! i = Some y.
Proof. apply elem_of_assign_ranks. Qed.

Lemma sorted_entries_elem u data y :
  y ∈ array_sort points_comparator (to_entry u <$> data) ->
  exists r, r ∈ data /\ y = to_entry u r.
Proof.
  destruct (sorted_entries_stable u data) as (Hp & _ & _).
  rewrite Hp. intros Hy. apply list_elem_of_fmap in Hy as (r & -> & Hr). eauto.
Qed.

(** C3: a strictly higher score gets a strictly smaller rank number. *)
Theorem build_leaderboard_rank_order u data e1 e2 :
  e1 ∈ build_leaderboard u data -> e2 ∈ build_leaderboard u data ->
  Entry.points e2 < Entry.points e1 ->
  exists r1 r2, Entry.rank e1 = Some r1 /\ Entry.rank e2 = Some r2 /\ (r1 < r2)%nat.
Proof.
  rewrite !elem_of_build_leaderboard.
  intros (i & y1 & -> & Hi) (j & y2 & -> & Hj) Hlt. simpl in *.
  exists (i + 1)%nat, (j + 1)%nat. split_and!; [done|done|].
  destruct (sorted_entries_stable u data) as (_ & Hs & _).
  apply (Sorted_StronglySorted _) in Hs.
  destruct (Nat.lt_trichotomy i j) as [?|[->|Hji]]; [lia| |].
  - rewrite Hi in Hj. injection Hj as ->. lia.
  - pose proof (StronglySorted_lookup _ _ _ _ _ _ Hs Hj Hi Hji) as Hr.
    unfold desc_by in Hr. lia.
Qed.

(** Every row of the response has its entry in the leaderboard. *)
Lemma build_leaderboard_complete u data r :
  r ∈ data -> exists e, e ∈ build_leaderboard u data /\ unrank e = to_entry u r.
Proof.
  intros Hr. destruct (sorted_entries_stable u data) as (Hp & _ & _).
  assert (to_entry u r ∈ array_sort points_comparator (to_entry u <$> data)) as Hy
    by (rewrite Hp; by apply list_elem_of_fmap_2).
  apply list_elem_of_lookup in Hy as [i Hi].
  exists (set_rank (i + 1) (to_entry u r)). split; [|done].
  apply elem_of_build_leaderboard. eauto.
Qed.

(** C4: an entry is marked as the signed-in user exactly when its name
    is the string [userName] (strict equality: case-sensitive, no
    trimming, a [null] name never matches). *)
Theorem build_leaderboard_isUser u data e :
  e ∈ build_leaderboard u data -> (Entry.isUser e = true <-> Entry.name e = Some u).
Proof.
  rewrite elem_of_build_leaderboard. intros (i & y & -> & Hi).
  apply list_elem_of_lookup_2, sorted_entries_elem in Hi as (r & _ & ->).
  apply strict_eq_str_true.
Qed.

(** C10: when all scores differ, the leaderboard does not depend on the
    order in which the backend returns the rows. *)
Theorem build_leaderboard_perm_invariant u data1 data2 :
  data1 ≡ₚ data2 ->
  NoDup (Entry.points <$> (to_entry u <$> data1)) ->
  build_leaderboard u data1 = build_leaderboard u data2.
Proof.
  intros Hp Hnd. unfold_let build_leaderboard. f_equal.
  destruct (sorted_entries_stable u data1) as (_ & S1 & C1).
  destruct (sorted_entries_stable u data2) as (_ & S2 & C2).
  apply (sorted_key_classes_unique Entry.points); [done|done|].
  intros k. rewrite C1, C2. apply key_class_perm_nodup; [done|]. by rewrite Hp.
Qed.

(** The rows named [u] are exactly the marked ones: one direction each. *)
Lemma build_leaderboard_marks_named u data r :
  r ∈ data -> Row.name r = Some u ->
  exists e, e ∈ build_leaderboard u data /\ Entry.name e = Some u /\ Entry.isUser e = true.
Proof.
  intros Hr Hn. destruct (build_leaderboard_complete u data r Hr) as (e & He & Hu).
  exists e. split_and!; [done| |].
  - change (Entry.name (unrank e) = Some u). by rewrite Hu.
  - change (Entry.isUser (unrank e) = true). rewrite Hu. simpl. by rewrite Hn, strict_eq_str_true.
Qed.

Lemma build_leaderboard_unmarked u data :
  (forall r, r ∈ data -> Row.name r <> Some u) ->
  Forall (fun e => Entry.isUser e = false) (build_leaderboard u data).
Proof.
  intros Hn. apply list.Forall_forall. intros e.
  rewrite elem_of_build_leaderboard. intros (i & y & -> & Hi).
  apply list_elem_of_lookup_2, sorted_entries_elem in Hi as (r & Hr & ->). simpl.
  destruct (Row.name r === u) eqn:E; [|done].
  apply strict_eq_str_true in E. by destruct (Hn r Hr).
Qed.

(** C11: before the signed-in user's name is resolved the component
    ranks with [userName = ""], and a row whose name is the empty
    string is then marked as the user. *)
Theorem build_leaderboard_empty_identity data r :
  r ∈ data -> Row.name r = Some "" ->
  exists e, e ∈ build_leaderboard "" data /\ Entry.isUser e = true.
Proof.
  intros Hr Hn. destruct (build_leaderboard_marks_named "" data r Hr Hn) as (e & He & _ & Hu).
  eauto.
Qed.

End WithEngine.

(** ** Concrete runs *)

(** The rows of the spec's example (A with 10 squats, B with 5
    push-ups, C with 100 jumping jacks), used to instantiate the
    theorems at a concrete response. *)
Definition spec_rows : list Row.t :=
  [Row.mk (Some "A") (Some 10) (Some 0) (Some 0);
   Row.mk (Some "B") (Some 0) (Some 5) (Some 0);
   Row.mk (Some "C") (Some 0) (Some 0) (Some 100)].

Definition entry_of (n : string) (s p j pts : Z) (me : bool) (r : nat) : Entry.t :=
  Entry.mk (Some n) (Some s) (Some p) (Some j) pts me (Some r).

Lemma build_leaderboard_rank_order_witness :
  exists r1 r2, Entry.rank (entry_of "C" 0 0 100 100 false 1) = Some r1
    /\ Entry.rank (entry_of "A" 10 0 0 10 false 2) = Some r2 /\ (r1 < r2)%nat.
Proof.
  apply (build_leaderboard_rank_order "B" spec_rows).
  - apply list_elem_of_In. vm_compute. left; reflexivity.
  - apply list_elem_of_In. vm_compute. right; left; reflexivity.
  - vm_compute. reflexivity.
Defined.

Lemma build_leaderboard_isUser_witness :
  Entry.isUser (entry_of "B" 0 5 0 10 true 3) = true <->
  Entry.name (entry_of "B" 0 5 0 10 true 3) = Some "B".
Proof.
  apply (build_leaderboard_isUser "B" spec_rows).
  apply list_elem_of_In. vm_compute. right; right; left; reflexivity.
Defined.

Lemma build_leaderboard_perm_invariant_witness :
  build_leaderboard "" [Row.mk (Some "A") (Some 1) None None; Row.mk (Some "B") (Some 2) None None]
  = build_leaderboard "" [Row.mk (Some "B") (Some 2) None None; Row.mk (Some "A") (Some 1) None None].
Proof.
  apply build_leaderboard_perm_invariant.
  - apply Permutation_swap.
  - apply (bool_decide_unpack _). vm_compute. reflexivity.
Defined.

Lemma build_leaderboard_empty_identity_witness :
  exists e, e ∈ build_leaderboard "" [Row.mk (Some "") (Some 3) None None]
    /\ Entry.isUser e = true.
Proof.
  apply (build_leaderboard_empty_identity _ (Row.mk (Some "") (Some 3) None None)).
  - left.
  - reflexivity.
Defined.

End Ranking.
