(* ===== verification/LeaderboardPage.v ===== *)
(** * The Leaderboard component's effects: fetchUsername and fetchLeaderboardData

    Leaderboard.jsx lines 13-75. After the first render two effects run:
    [fetchUsername()] (two awaited queries, then [setUserName]) and the
    [userName]-dependent effect, which starts [fetchLeaderboardData]
    capturing the current [userName]. Every change of [userName] re-runs
    that effect, so two leaderboard queries can be in flight; each one,
    when it settles, overwrites [leaderboardData]. The model is a state
    with the pending queries and a step function over the settlement
    events, the backend choosing each response and the order in which
    responses arrive. *)

From S2P Require Import Prelude JsCore Scoring ArraySort Ranking Supabase.

Module LeaderboardPage.
Import Ranking.

(** The settled profile query [select('name').eq('user_id',
    userId).single()]: the row's [name], [None] when [userDetails] or its
    [name] is null (both read as [undefined || 'User']). *)
Abbreviation profile_response := (query_response (option string)).

(** The settled leaderboard query [select('name, total_squats, pushups,
    jumping_jacks')]: the rows, [None] for a null [data]. *)
Abbreviation board_response := (query_response (option (list Row.t))).

(** Where [fetchUsername] is suspended. *)
Inductive username_phase :=
  | AwaitAuth
  | AwaitProfile (user_id : string)
  | UsernameDone.

Record state := mkState {
  leaderboardData : list Entry.t;
  userName : string;
  phase : username_phase;
  (** the [userName] captured by each [fetchLeaderboardData] still
      awaiting its query, in the order they were started *)
  pending : list string
}.

(** A settlement: getUser, the profile query, or the [i]-th pending
    leaderboard query. *)
Inductive event :=
  | EvAuth (r : auth_response)
  | EvProfile (r : profile_response)
  | EvBoard (i : nat) (r : board_response).

Section WithEngine.
Context `{ArraySort}.

(** First render: both state hooks at their initial values, then the two
    effects: [fetchUsername] waits on getUser and the [userName] effect
    starts a leaderboard query with [userName = '']. *)
Definition mount : state :=
  {| leaderboardData := []; userName := ""; phase := AwaitAuth; pending := [""] |}.

Definition set_phase (p : username_phase) (s : state) : state :=
  {| leaderboardData := leaderboardData s; userName := userName s;
     phase := p; pending := pending s |}.

(** [setUserName(v)]: React skips the re-render when [v] is the current
    value; otherwise the new render re-runs the [[userName]] effect,
    which starts a leaderboard query capturing [v]. *)
Definition setUserName (v : string) (s : state) : state :=
  if bool_decide (v = userName s) then s
  else {| leaderboardData := leaderboardData s; userName := v;
          phase := phase s; pending := pending s ++ [v] |}.

(** The continuation of [fetchUsername] after getUser (line 20). *)
Definition on_auth (r : auth_response) (s : state) : state :=
  match r with
  | AuthUser uid => set_phase (AwaitProfile uid) s
  | _ => set_phase UsernameDone s
  end.

(** The continuation after the profile query (lines 30-35). *)
Definition on_profile (r : profile_response) (s : state) : state :=
  match r with
  | QOk nm => setUserName (js_or_str nm "User") (set_phase UsernameDone s)
  | _ => set_phase UsernameDone s
  end.

(** The continuation of a [fetchLeaderboardData] that captured
    [captured] (lines 52-70); [s] no longer lists it as pending. A null
    [data] makes [data.map] throw, which the [catch] logs. *)
Definition on_board (captured : string) (r : board_response) (s : state) : state :=
  match r with
  | QOk (Some data) =>
      {| leaderboardData := build_leaderboard captured data; userName := userName s;
         phase := phase s; pending := pending s |}
  | _ => s
  end.

Definition drop_pending (i : nat) (s : state) : state :=
  {| leaderboardData := leaderboardData s; userName := userName s;
     phase := phase s; pending := delete i (pending s) |}.

(** One settlement; [None] when the event is not enabled. *)
Definition step (s : state) (ev : event) : option state :=
  match ev with
  | EvAuth r => if phase s is AwaitAuth then Some (on_auth r s) else None
  | EvProfile r => if phase s is AwaitProfile _ then Some (on_profile r s) else None
  | EvBoard i r =>
      match pending s !! i with
      | Some captured => Some (on_board captured r (drop_pending i s))
      | None => None
      end
  end.

Fixpoint run (s : state) (evs : list event) : option state :=
  match evs with
  | [] => Some s
  | ev :: evs => match step s ev with Some s' => run s' evs | None => None end
  end.

Inductive reachable : state -> Prop :=
  | reachable_mount : reachable mount
  | reachable_step s ev s' : reachable s -> step s ev = Some s' -> reachable s'.

#[local] Hint Constructors reachable : lb.

(** ** Library lemmas on the step function *)

Lemma run_reachable s evs s' : reachable s -> run s evs = Some s' -> reachable s'.
Proof.
  revert s. induction evs as [|ev evs IH]; intros s Hs; simpl; [congruence|].
  destruct (step s ev) as [s1|] eqn:E; [|done]. eauto with lb.
Qed.

Lemma step_EvBoard_inv s i r s' :
  step s (EvBoard i r) = Some s' ->
  exists captured, pending s !! i = Some captured
    /\ s' = on_board captured r (drop_pending i s).
Proof. simpl. destruct (pending s !! i); [|done]. intros [= <-]. eauto. Qed.

(** The number of settlements still possible: the queries of
    [fetchUsername] left (the last one may start one more leaderboard
    query) plus the pending leaderboard queries. *)
Definition phase_weight (p : username_phase) : nat :=
  match p with AwaitAuth => 3 | AwaitProfile _ => 2 | UsernameDone => 0 end.
Definition potential (s : state) : nat := phase_weight (phase s) + length (pending s).

Lemma length_setUserName v s :
  (length (pending (setUserName v s)) <= S (length (pending s)))%nat.
Proof. unfold setUserName. case_bool_decide; simpl; rewrite ?length_app; simpl; lia. Qed.

Lemma phase_setUserName v s : phase (setUserName v s) = phase s.
Proof. unfold setUserName. by case_bool_decide. Qed.

Lemma step_potential s ev s' : step s ev = Some s' -> (potential s' < potential s)%nat.
Proof.
  unfold potential. destruct ev as [r|r|i r].
  - simpl. destruct (phase s); intros [= <-]. destruct r; simpl; lia.
  - simpl. destruct (phase s); intros [= <-]. destruct r as [|nm|]; simpl; [lia| |lia].
    rewrite phase_setUserName. pose proof (length_setUserName (js_or_str nm "User")
      (set_phase UsernameDone s)). simpl in *. lia.
  - intros (c & Hc & ->)%step_EvBoard_inv.
    assert (length (delete i (pending s)) < length (pending s))%nat.
    { rewrite length_delete by eauto. apply lookup_lt_Some in Hc. lia. }
    destruct r as [|[]|]; simpl; lia.
Qed.

Lemma run_potential s evs s' :
  run s evs = Some s' -> (length evs + potential s' <= potential s)%nat.
Proof.
  revert s. induction evs as [|ev evs IH]; intros s; simpl; [intros [= ->]; lia|].
  destruct (step s ev) as [s1|] eqn:E; [|done].
  intros Hrun. apply IH in Hrun. apply step_potential in E. lia.
Qed.

(** C14: the component's asynchronous activity is bounded: from the
    first render, at most four responses can ever be applied (getUser,
    the profile query and two leaderboard queries), whatever the
    backend answers and in whatever order the responses arrive. *)
Theorem run_mount_bounded evs s :
  run mount evs = Some s -> (length evs <= 4)%nat.
Proof. intros Hrun. apply run_potential in Hrun. change (potential mount) with 4%nat in Hrun. lia. Qed.

(** The invariant of the component: [userName] stays [''] until
    [fetchUsername] has finished; every pending query captured [''] or
    the current [userName]; and the displayed data is empty or a
    leaderboard computed for one of those two names. *)
Definition page_inv (s : state) : Prop :=
  (phase s <> UsernameDone -> userName s = "")
  /\ Forall (fun u => u = "" \/ u = userName s) (pending s)
  /\ (leaderboardData s = []
      \/ exists u data, (u = "" \/ u = userName s) /\ leaderboardData s = build_leaderboard u data).

Lemma page_inv_mount : page_inv mount.
Proof. split_and!; [done|by repeat constructor; left|by left]. Qed.

Lemma page_inv_set_done s :
  page_inv s -> page_inv (set_phase UsernameDone s).
Proof. intros (_ & Hp & Hd). split_and!; [done|exact Hp|exact Hd]. Qed.

Lemma page_inv_on_profile s r :
  page_inv s -> phase s <> UsernameDone -> page_inv (on_profile r s).
Proof.
  intros Hi Hph. pose proof Hi as (Hu & Hp & Hd). specialize (Hu Hph).
  destruct r as [|nm|]; simpl; try (by apply page_inv_set_done).
  unfold setUserName; simpl. case_bool_decide as Hv; [by apply page_inv_set_done|].
  split_and!; simpl; [done| |].
  - apply Forall_app; split; [|by repeat constructor; right].
    refine (list.Forall_impl _ _ _ Hp _). intros u [->| ->]; left; [done|exact Hu].
  - destruct Hd as [?|(u & d & Hud & ?)]; [by left|right].
    exists u, d. split; [left; destruct Hud; congruence|done].
Qed.

Lemma page_inv_on_board s i r :
  page_inv s -> is_Some (pending s !! i) ->
  forall c, pending s !! i = Some c -> page_inv (on_board c r (drop_pending i s)).
Proof.
  intros (Hu & Hp & Hd) _ c Hc.
  assert (c = "" \/ c = userName s) as Hcu.
  { rewrite list.Forall_forall in Hp. apply Hp. by eapply list_elem_of_lookup_2. }
  assert (page_inv (drop_pending i s)) as Hdrop.
  { split_and!; simpl; [done|by apply Forall_delete|done]. }
  destruct r as [|[data|]|]; simpl; try exact Hdrop.
  split_and!; simpl; [done|by apply Forall_delete|]. right. eauto.
Qed.

Lemma step_page_inv s ev s' : page_inv s -> step s ev = Some s' -> page_inv s'.
Proof.
  intros Hi. destruct ev as [r|r|i r].
  - simpl. destruct (phase s) eqn:Hph; intros [= <-].
    destruct Hi as (Hu & Hp & Hd).
    destruct r; split_and!; simpl; rewrite ?Hph in Hu; auto; intros _; by apply Hu.
  - simpl. destruct (phase s) eqn:Hph; intros [= <-].
    apply page_inv_on_profile; [done|by rewrite Hph].
  - intros (c & Hc & ->)%step_EvBoard_inv. eapply page_inv_on_board; eauto.
Qed.

Lemma reachable_page_inv s : reachable s -> page_inv s.
Proof. induction 1; eauto using page_inv_mount, step_page_inv. Qed.

Lemma page_inv_ranks s :
  page_inv s ->
  Entry.rank <$> leaderboardData s = (fun i => Some i) <$> seq 1 (length (leaderboardData s)).
Proof.
  intros (_ & _ & [-> | (u & data & _ & ->)]); [done|].
  unfold_let build_leaderboard. by rewrite rank_assign_ranks, length_assign_ranks.
Qed.

(** C6: in every state the component can reach, whatever the backend
    answers and in whatever order, the displayed [leaderboardData] is
    empty or is [build_leaderboard u data] for some fetched rows and a
    name [u] that is [''] or the current [userName]; its ranks are then
    [1..n]. *)
Theorem reachable_leaderboardData s :
  reachable s ->
  (leaderboardData s = []
   \/ exists u data, (u = "" \/ u = userName s)
       /\ leaderboardData s = build_leaderboard u data)
  /\ Entry.rank <$> leaderboardData s
     = (fun i => Some i) <$> seq 1 (length (leaderboardData s)).
Proof.
  intros Hr. pose proof (reachable_page_inv s Hr) as Hi.
  split; [apply Hi|by apply page_inv_ranks].
Qed.

(** C13: [fetchUsername] on each branch. After a user id and a profile
    answer, [userName] is the profile's name, or ["User"] when that name
    is null or empty, and the [[userName]] effect starts a second
    leaderboard query for it; when getUser fails, finds no user or
    rejects, [userName] stays [''] and no profile query follows. *)
Theorem fetchUsername_branches uid nm r :
  run mount [EvAuth (AuthUser uid); EvProfile (QOk nm)] =
    Some {| leaderboardData := []; userName := js_or_str nm "User";
            phase := UsernameDone; pending := [""; js_or_str nm "User"] |}
  /\ ((forall u, r <> AuthUser u) ->
      run mount [EvAuth r] =
        Some {| leaderboardData := []; userName := ""; phase := UsernameDone; pending := [""] |}
      /\ forall r', run mount [EvAuth r; EvProfile r'] = None).
Proof.
  split.
  - simpl. unfold setUserName; simpl. rewrite bool_decide_false by apply js_or_str_User. done.
  - intros Hr. destruct r as [| |u|]; [done|done|by destruct (Hr u)|done].
Qed.

(** After getUser and a profile with a non-empty [name], before any
    leaderboard query settles. *)
Definition name_resolved (n : string) : state :=
  {| leaderboardData := []; userName := n; phase := UsernameDone; pending := [""; n] |}.

Lemma run_resolve_name uid n evs :
  n <> "" ->
  run mount (EvAuth (AuthUser uid) :: EvProfile (QOk (Some n)) :: evs) = run (name_resolved n) evs.
Proof.
  intros Hn. cbn -[js_or_str]. rewrite js_or_str_nonempty by done.
  unfold setUserName; simpl. by rewrite bool_decide_false.
Qed.

(** C5: the stale-response race. When the query started at mount (with
    [userName = '']) settles after the one started for the resolved
    name, it overwrites the leaderboard: the component ends with
    [userName] set but the data ranked for [''], so the signed-in user's
    row is not marked (every settlement succeeded). *)
Theorem stale_leaderboard_race uid n data :
  n <> "" ->
  run mount [EvAuth (AuthUser uid); EvProfile (QOk (Some n));
             EvBoard 1 (QOk (Some data)); EvBoard 0 (QOk (Some data))] =
    Some {| leaderboardData := build_leaderboard "" data; userName := n;
            phase := UsernameDone; pending := [] |}.
Proof.
  intros Hn. rewrite run_resolve_name by done. reflexivity.
Qed.

(** C12: when the leaderboard responses arrive in the order the queries
    were started, the last one wins and the data is ranked for the
    resolved name. *)
Theorem in_order_leaderboard uid n data1 data2 :
  n <> "" ->
  run mount [EvAuth (AuthUser uid); EvProfile (QOk (Some n));
             EvBoard 0 (QOk (Some data1)); EvBoard 0 (QOk (Some data2))] =
    Some {| leaderboardData := build_leaderboard n data2; userName := n;
            phase := UsernameDone; pending := [] |}.
Proof.
  intros Hn. rewrite run_resolve_name by done. reflexivity.
Qed.

End WithEngine.

#[export] Hint Constructors reachable : lb.

Lemma run_mount_bounded_witness :
  (length [EvAuth (AuthUser "u1"); EvProfile (QOk (Some "alice"));
           EvBoard 1 (QOk (Some [])); EvBoard 0 (QOk (Some []))] <= 4)%nat.
Proof. eapply run_mount_bounded. vm_compute. reflexivity. Defined.

Lemma fetchUsername_branches_witness :
  run mount [EvAuth (AuthUser "u1"); EvProfile (QOk None)] =
    Some {| leaderboardData := []; userName := js_or_str None "User";
            phase := UsernameDone; pending := [""; js_or_str None "User"] |}
  /\ ((forall u, AuthError <> AuthUser u) ->
      run mount [EvAuth AuthError] =
        Some {| leaderboardData := []; userName := ""; phase := UsernameDone; pending := [""] |}
      /\ forall r', run mount [EvAuth AuthError; EvProfile r'] = None).
Proof. apply fetchUsername_branches. Defined.

Lemma stale_leaderboard_race_witness :
  run mount [EvAuth (AuthUser "u1"); EvProfile (QOk (Some "alice"));
             EvBoard 1 (QOk (Some spec_rows)); EvBoard 0 (QOk (Some spec_rows))] =
    Some {| leaderboardData := build_leaderboard "" spec_rows; userName := "alice";
            phase := UsernameDone; pending := [] |}.
Proof. apply stale_leaderboard_race. vm_compute. discriminate. Defined.

Lemma in_order_leaderboard_witness :
  run mount [EvAuth (AuthUser "u1"); EvProfile (QOk (Some "B"));
             EvBoard 0 (QOk (Some [])); EvBoard 0 (QOk (Some spec_rows))] =
    Some {| leaderboardData := build_leaderboard "B" spec_rows; userName := "B";
            phase := UsernameDone; pending := [] |}.
Proof. apply in_order_leaderboard. vm_compute. discriminate. Defined.

Lemma reachable_leaderboardData_witness :
  (leaderboardData mount = []
   \/ exists u data, (u = "" \/ u = userName mount)
       /\ leaderboardData mount = build_leaderboard u data)
  /\ Entry.rank <$> leaderboardData mount
     = (fun i => Some i) <$> seq 1 (length (leaderboardData mount)).
Proof. apply reachable_leaderboardData. constructor. Defined.

End LeaderboardPage.
