(* ===== verification/LeaderboardView.v ===== *)
(** * The Leaderboard component's rendering

    Leaderboard.jsx lines 77-153: [getTrophyColor], the podium of the
    first three entries ([leaderboardData.slice(0, 3)]) and the full
    list. The rendered markup is modelled as records of the values the
    JSX computes (keys, class strings, the crown, the "(You)" label);
    layout-only attributes that do not depend on data are left out. *)

From S2P Require Import Prelude JsCore Supabase Scoring ArraySort Ranking LeaderboardPage.

Module LeaderboardView.
Import Ranking LeaderboardPage.

(** [getTrophyColor(rank)] (lines 77-82). *)
Definition getTrophyColor (rank : option nat) : string :=
  match rank with
  | Some 1%nat => "text-yellow-500"
  | Some 2%nat => "text-gray-400"
  | Some 3%nat => "text-amber-700"
  | _ => "text-gray-500"
  end.

(** One podium card (lines 94-125). *)
Record podium_card := mkCard {
  card_key : option nat;
  card_border : string;
  card_delay_tenths : nat;
  card_crown : bool;
  card_medal : string;
  card_name : option string;
  card_points : Z
}.

Definition podium_border (index : nat) : string :=
  match index with
  | 0%nat => "border-yellow-500 order-2 transform scale-100"
  | 1%nat => "border-gray-400 order-1 transform scale-100"
  | _ => "border-gray-400 order-3 transform scale-100"
  end.

Definition podium_card_of (index : nat) (user : Entry.t) : podium_card :=
  {| card_key := Entry.rank user;
     card_border := podium_border index;
     card_delay_tenths := index;
     card_crown := bool_decide (index = 0%nat);
     card_medal := getTrophyColor (Entry.rank user);
     card_name := Entry.name user;
     card_points := Entry.points user |}.

(** [leaderboardData.slice(0, 3).map((user, index) => ...)]. *)
Definition podium (leaderboardData : list Entry.t) : list podium_card :=
  imap podium_card_of (take 3%nat leaderboardData).

(** One row of the full list (lines 134-148). *)
Record list_row := mkRow {
  row_key : option nat;
  row_class : string;
  row_badge : option nat;
  row_medal : string;
  row_name : option string;
  row_name_class : string;
  row_you : bool;
  row_points : Z
}.

Definition list_row_of (user : Entry.t) : list_row :=
  {| row_key := Entry.rank user;
     row_class := "relative flex items-center p-3 rounded-md "
                  +:+ (if Entry.isUser user then "bg-black" else "");
     row_badge := Entry.rank user;
     row_medal := "mr-2 " +:+ getTrophyColor (Entry.rank user);
     row_name := Entry.name user;
     row_name_class := "font-medium " +:+ (if Entry.isUser user then "text-blue-600" else "");
     row_you := Entry.isUser user;
     row_points := Entry.points user |}.

Record view := mkView { view_podium : list podium_card; view_rows : list list_row }.

Definition render (s : state) : view :=
  {| view_podium := podium (leaderboardData s);
     view_rows := list_row_of <$> leaderboardData s |}.

(** ** Lemmas *)

Lemma row_keys (l : list Entry.t) : row_key <$> (list_row_of <$> l) = Entry.rank <$> l.
Proof. rewrite <-list_fmap_compose. by apply list_fmap_ext. Qed.

Lemma card_keys l : card_key <$> podium l = Entry.rank <$> take 3%nat l.
Proof. unfold podium. rewrite fmap_imap, <-imap_const. by apply imap_ext. Qed.

Lemma NoDup_rank_seq n : NoDup ((fun i : nat => Some i) <$> seq 1 n).
Proof. apply NoDup_fmap_2; [intros ?? [=]; done|apply NoDup_seq]. Qed.

Section WithEngine.
Context `{ArraySort}.

(** C16: in every reachable state the React keys ([user.rank]) of the
    list rows are pairwise distinct, and so are those of the podium
    cards. *)
Theorem render_keys_unique s :
  reachable s ->
  NoDup (row_key <$> view_rows (render s)) /\ NoDup (card_key <$> view_podium (render s)).
Proof.
  intros Hr. apply reachable_page_inv, page_inv_ranks in Hr. simpl.
  rewrite row_keys, card_keys, fmap_take, Hr. split; [apply NoDup_rank_seq|].
  rewrite <-fmap_take, take_seq. apply NoDup_rank_seq.
Qed.

(** C17: in every reachable state the podium shows the first
    [min 3 n] entries; the first card carries the crown and the gold
    medal, the second the silver, the third the bronze. *)
Theorem render_podium_medals s :
  reachable s ->
  card_medal <$> view_podium (render s)
    = take (length (leaderboardData s)) ["text-yellow-500"; "text-gray-400"; "text-amber-700"]
  /\ card_crown <$> view_podium (render s)
    = take (length (leaderboardData s)) [true; false; false].
Proof.
  intros Hr. apply reachable_page_inv, page_inv_ranks in Hr. simpl.
  destruct (leaderboardData s) as [|e1 [|e2 [|e3 l]]]; [done| | |];
    cbn in Hr; injection Hr; intros; unfold podium; cbn;
    repeat match goal with H : Entry.rank _ = _ |- _ => rewrite H; clear H end; rewrite ?take_nil; split; reflexivity.
Qed.

(** C7: the race of C5 as the user sees it: the signed-in user has a
    row, every query succeeds, and still no row of the final list
    carries the "(You)" label or the highlight (as long as no trackie
    is named with the empty string). *)
Theorem race_hides_you_label uid n data r :
  n <> "" -> r ∈ data -> Row.name r = Some n ->
  (forall r', r' ∈ data -> Row.name r' <> Some "") ->
  exists s, run mount [EvAuth (AuthUser uid); EvProfile (QOk (Some n));
                       EvBoard 1 (QOk (Some data)); EvBoard 0 (QOk (Some data))] = Some s
    /\ userName s = n /\ pending s = []
    /\ Forall (fun row => row_you row = false) (view_rows (render s)).
Proof.
  intros Hn _ _ Hnone. rewrite run_resolve_name by done.
  eexists; split; [reflexivity|]. split_and!; [done|done|]. simpl.
  apply Forall_fmap. eapply list.Forall_impl; [by apply build_leaderboard_unmarked|].
  done.
Qed.

(** C8: with the responses in the order the queries started, the
    "(You)" label is on exactly the rows that display the resolved name,
    and the signed-in user's row is among them. *)
Theorem in_order_shows_you_label uid n data1 data2 r :
  n <> "" -> r ∈ data2 -> Row.name r = Some n ->
  exists s, run mount [EvAuth (AuthUser uid); EvProfile (QOk (Some n));
                       EvBoard 0 (QOk (Some data1)); EvBoard 0 (QOk (Some data2))] = Some s
    /\ pending s = []
    /\ (forall row, row ∈ view_rows (render s) -> row_you row = true <-> row_name row = Some n)
    /\ exists row, row ∈ view_rows (render s) /\ row_name row = Some n /\ row_you row = true.
Proof.
  intros Hn Hr Hname. rewrite run_resolve_name by done.
  eexists; split; [reflexivity|]. split_and!; [done| |]; simpl.
  - intros row (e & -> & He)%list_elem_of_fmap. simpl.
    apply elem_of_build_leaderboard in He as (i & y & -> & Hi).
    apply list_elem_of_lookup_2, sorted_entries_elem in Hi as (r' & _ & ->).
    apply strict_eq_str_true.
  - destruct (build_leaderboard_marks_named n data2 r Hr Hname) as (e & He & Hen & Hu).
    exists (list_row_of e). split_and!; [by apply list_elem_of_fmap_2|done|done].
Qed.

End WithEngine.

Lemma race_hides_you_label_witness :
  exists s, run mount [EvAuth (AuthUser "u1"); EvProfile (QOk (Some "B"));
                       EvBoard 1 (QOk (Some spec_rows)); EvBoard 0 (QOk (Some spec_rows))] = Some s
    /\ userName s = "B" /\ pending s = []
    /\ Forall (fun row => row_you row = false) (view_rows (render s)).
Proof.
  apply (race_hides_you_label _ _ _ (Row.mk (Some "B") (Some 0) (Some 5) (Some 0))).
  - discriminate.
  - vm_compute. right; left.
  - reflexivity.
  - intros r' Hr'. apply list_elem_of_In in Hr'. vm_compute in Hr'.
    destruct Hr' as [<-|[<-|[<-|[]]]]; discriminate.
Defined.

Lemma in_order_shows_you_label_witness :
  exists s, run mount [EvAuth (AuthUser "u1"); EvProfile (QOk (Some "B"));
                       EvBoard 0 (QOk (Some [])); EvBoard 0 (QOk (Some spec_rows))] = Some s
    /\ pending s = []
    /\ (forall row, row ∈ view_rows (render s) -> row_you row = true <-> row_name row = Some "B")
    /\ exists row, row ∈ view_rows (render s) /\ row_name row = Some "B" /\ row_you row = true.
Proof.
  apply (in_order_shows_you_label _ _ _ _ (Row.mk (Some "B") (Some 0) (Some 5) (Some 0))).
  - discriminate.
  - vm_compute. right; left.
  - reflexivity.
Defined.

Lemma render_keys_unique_witness :
  NoDup (row_key <$> view_rows (render mount)) /\ NoDup (card_key <$> view_podium (render mount)).
Proof. apply render_keys_unique. constructor. Defined.

Lemma render_podium_medals_witness :
  card_medal <$> view_podium (render mount)
    = take (length (leaderboardData mount)) ["text-yellow-500"; "text-gray-400"; "text-amber-700"]
  /\ card_crown <$> view_podium (render mount)
    = take (length (leaderboardData mount)) [true; false; false].
Proof. apply render_podium_medals. constructor. Defined.

End LeaderboardView.
