(* ===== verification/TopNav.v ===== *)
(** * TopNav: the signed-in user's name and streak, the profile popup, logout

    src/src/pages/TopNav.jsx. State hooks [userName], [streak],
    [showProfilePopup]; an effect [fetchUserData] run once after mount
    (getUser, then [select('name, streak').eq('user_id', id).single()]);
    the User button toggles the popup; the popup's Logout button runs
    [handleLogout]: [await supabase.auth.signOut(); window.location.reload()].
    The model adds the phase of [fetchUserData], the number of
    [handleLogout] calls waiting on [signOut], and whether the page has
    been reloaded (after which this instance receives no event). *)

From S2P Require Import Prelude JsCore Supabase.

Module TopNav.

(** [userDetails] of the query: [None] for a null row, then the
    nullable [name] and [streak] columns. *)
Record user_details := mkDetails {
  details_name : option string;
  details_streak : option Z
}.

Abbreviation row_response := (query_response (option user_details)).

Inductive fetch_phase :=
  | AwaitAuth
  | AwaitRow (user_id : string)
  | FetchDone.

Record state := mkState {
  userName : string;
  streak : Z;
  showProfilePopup : bool;
  phase : fetch_phase;
  signouts : nat;
  reloaded : bool
}.

Inductive event :=
  | EvAuth (r : auth_response)
  | EvRow (r : row_response)
  | EvToggleProfile
  | EvLogout
  | EvSignOut (r : signout_response).

(** Mount: hooks at [""], [0], [false]; the effect awaits getUser. *)
Definition mount : state :=
  {| userName := ""; streak := 0; showProfilePopup := false; phase := AwaitAuth;
     signouts := 0; reloaded := false |}.

Definition with_phase (p : fetch_phase) (s : state) : state :=
  {| userName := userName s; streak := streak s; showProfilePopup := showProfilePopup s;
     phase := p; signouts := signouts s; reloaded := reloaded s |}.

(** Lines 14-16 of [fetchUserData]. *)
Definition on_auth (r : auth_response) (s : state) : state :=
  match r with
  | AuthUser uid => with_phase (AwaitRow uid) s
  | _ => with_phase FetchDone s
  end.

(** Lines 25-31: [setUserName(userDetails?.name || "User")] and
    [setStreak(userDetails?.streak || 0)]. *)
Definition on_row (r : row_response) (s : state) : state :=
  match r with
  | QOk d =>
      let nm := match d with Some d => details_name d | None => None end in
      let st := match d with Some d => details_streak d | None => None end in
      {| userName := js_or_str nm "User"; streak := js_or_num st 0;
         showProfilePopup := showProfilePopup s; phase := FetchDone;
         signouts := signouts s; reloaded := reloaded s |}
  | _ => with_phase FetchDone s
  end.

(** [onClick={() => setShowProfilePopup(!showProfilePopup)}]. *)
Definition toggle_profile (s : state) : state :=
  {| userName := userName s; streak := streak s; showProfilePopup := negb (showProfilePopup s);
     phase := phase s; signouts := signouts s; reloaded := reloaded s |}.

(** [handleLogout] up to its [await]. *)
Definition start_logout (s : state) : state :=
  {| userName := userName s; streak := streak s; showProfilePopup := showProfilePopup s;
     phase := phase s; signouts := S (signouts s); reloaded := reloaded s |}.

(** The rest of [handleLogout]: when [signOut()] resolves, with or
    without an [error], the page reloads; when it rejects, the rejection
    escapes [handleLogout] (there is no [catch]) and nothing else happens. *)
Definition on_signout (r : signout_response) (s : state) : state :=
  {| userName := userName s; streak := streak s; showProfilePopup := showProfilePopup s;
     phase := phase s; signouts := pred (signouts s);
     reloaded := match r with SignOutThrows => reloaded s | _ => true end |}.

Definition step (s : state) (ev : event) : option state :=
  if reloaded s then None else
  match ev with
  | EvAuth r => if phase s is AwaitAuth then Some (on_auth r s) else None
  | EvRow r => if phase s is AwaitRow _ then Some (on_row r s) else None
  | EvToggleProfile => Some (toggle_profile s)
  | EvLogout => if showProfilePopup s then Some (start_logout s) else None
  | EvSignOut r => if signouts s is S _ then Some (on_signout r s) else None
  end.

Fixpoint run (s : state) (evs : list event) : option state :=
  match evs with
  | [] => Some s
  | ev :: evs => match step s ev with Some s' => run s' evs | None => None end
  end.

Inductive reachable : state -> Prop :=
  | reachable_mount : reachable mount
  | reachable_step s ev s' : reachable s -> step s ev = Some s' -> reachable s'.

(** ** Lemmas *)




(** C18: [fetchUserData] on each branch: after a user id and a row, the
    name shown is the row's name, or "User" when it is null or empty,
    and the streak is the row's streak with null read as 0; when getUser
    fails, finds no user or rejects, or the row query fails or rejects,
    the header keeps [""] and [0]. *)
Theorem fetchUserData_branches uid d r r' :
  run mount [EvAuth (AuthUser uid); EvRow (QOk d)] =
    Some {| userName := js_or_str (d ≫= details_name) "User";
            streak := num_of (d ≫= details_streak);
            showProfilePopup := false; phase := FetchDone; signouts := 0; reloaded := false |}
  /\ ((forall u, r <> AuthUser u) -> run mount [EvAuth r] = Some (with_phase FetchDone mount))
  /\ ((forall d', r' <> QOk d') ->
      run mount [EvAuth (AuthUser uid); EvRow r'] = Some (with_phase FetchDone mount)).
Proof.
  split_and!.
  - cbn -[js_or_str js_or_num]. autorewrite with lb_rw. by destruct d.
  - intros Hr. destruct r as [| |u|]; [done|done|by destruct (Hr u)|done].
  - intros Hr. destruct r' as [|d'|]; [done|by destruct (Hr d')|done].
Qed.

Lemma fetchUserData_branches_witness :
  run mount [EvAuth (AuthUser "u1"); EvRow (QOk (Some (mkDetails None (Some 4))))] =
    Some {| userName := js_or_str (Some (mkDetails None (Some 4)) ≫= details_name) "User";
            streak := num_of (Some (mkDetails None (Some 4)) ≫= details_streak);
            showProfilePopup := false; phase := FetchDone; signouts := 0; reloaded := false |}
  /\ ((forall u, AuthNoUser <> AuthUser u) ->
      run mount [EvAuth AuthNoUser] = Some (with_phase FetchDone mount))
  /\ ((forall d', (QError : row_response) <> QOk d') ->
      run mount [EvAuth (AuthUser "u1"); EvRow QError] = Some (with_phase FetchDone mount)).
Proof. apply fetchUserData_branches. Defined.



(** C19: logout: on a live page with the popup open, clicking Logout
    reloads the page once [signOut()] settles, also when it reports an
    [error] (the session may then still be active); when [signOut()]
    rejects, the page is not reloaded and stays as it was, popup open,
    with no message. *)
Theorem handleLogout_outcomes s r :
  reloaded s = false -> showProfilePopup s = true ->
  run s [EvLogout; EvSignOut r] =
    Some {| userName := userName s; streak := streak s; showProfilePopup := true;
            phase := phase s; signouts := signouts s;
            reloaded := if r is SignOutThrows then false else true |}.
Proof.
  intros Hr Hp. destruct s as [u st p ph so rl]; simpl in *; subst. by destruct r.
Qed.

Lemma handleLogout_outcomes_witness :
  run (toggle_profile mount) [EvLogout; EvSignOut SignOutThrows] =
    Some {| userName := userName (toggle_profile mount); streak := streak (toggle_profile mount);
            showProfilePopup := true; phase := phase (toggle_profile mount);
            signouts := signouts (toggle_profile mount);
            reloaded := if SignOutThrows is SignOutThrows then false else true |}.
Proof. apply handleLogout_outcomes; reflexivity. Defined.

(** The header shows [""] and streak [0] until [fetchUserData] ends. *)
Definition topnav_inv (s : state) : Prop :=
  phase s <> FetchDone -> userName s = "" /\ streak s = 0.

Lemma step_topnav_inv s ev s' : topnav_inv s -> step s ev = Some s' -> topnav_inv s'.
Proof.
  unfold topnav_inv, step. intros Hi. destruct (reloaded s); [done|].
  destruct ev as [r|r| | |r]; simpl.
  - destruct (phase s) eqn:E; intros [= <-]; destruct r; simpl; auto;
      intros _; apply Hi; by rewrite E.
  - destruct (phase s); intros [= <-]; destruct r; simpl; done.
  - intros [= <-]. exact Hi.
  - destruct (showProfilePopup s); intros [= <-]. exact Hi.
  - destruct (signouts s); intros [= <-]. exact Hi.
Qed.

(** C21: in every reachable state, before [fetchUserData] has finished
    the header shows the empty name and streak 0. *)
Theorem reachable_topnav_inv s :
  reachable s -> phase s <> FetchDone -> userName s = "" /\ streak s = 0.
Proof.
  induction 1 as [|s ev s' _ IH Hstep]; [intros _; done|].
  exact (step_topnav_inv s ev s' IH Hstep).
Qed.

Lemma reachable_topnav_inv_witness :
  userName mount = "" /\ streak mount = 0.
Proof. apply reachable_topnav_inv; [constructor|discriminate]. Defined.

End TopNav.
