(* ===== verification/Sidebar.v ===== *)
(** * Sidebar: the navigation menu

    src/src/pages/Sidebar.jsx. A stateless component: the active tab is
    the parent's state, received as [activeTab] and changed through the
    [setActiveTab] callback. The model renders the menu for a given
    [activeTab] and gives the value each button passes to
    [setActiveTab]. *)

From S2P Require Import Prelude.

Module Sidebar.

(** The lucide-react icons the menu uses. *)
Inductive icon := Home | Inbox | Users | Calendar | Activity | Award | BarChart2.

Record menu_item := mkItem { id : string; label : string; item_icon : icon }.

(** [menuItems] (lines 5-15). *)
Definition menuItems : list menu_item :=
  [mkItem "home" "Home" Home;
   mkItem "inbox" "Inbox" Inbox;
   mkItem "connection" "Connection" Users;
   mkItem "calendar" "Event Calendar" Calendar;
   mkItem "pose" "Pose Correction" Activity;
   mkItem "challenges" "Challenges" Award;
   mkItem "analytics" "Analytics" BarChart2;
   mkItem "workout" "Workout Library" Activity;
   mkItem "profile" "Profile" Users].

Definition active_class : string := "bg-gray-800 text-cyan-400".
Definition inactive_class : string := "hover:bg-gray-800 hover:text-cyan-400".

(** One [<li><button>] (lines 23-38). *)
Record menu_button := mkButton {
  button_key : string;
  button_class : string;
  button_icon : icon;
  button_label : string;
  button_badge : bool
}.

Definition button_of (activeTab : string) (item : menu_item) : menu_button :=
  {| button_key := id item;
     button_class := "flex items-center w-full p-2 rounded-md "
                     +:+ (if bool_decide (activeTab = id item) then active_class else inactive_class);
     button_icon := item_icon item;
     button_label := label item;
     button_badge := bool_decide (id item = "inbox") |}.

Definition render (activeTab : string) : list menu_button := button_of activeTab <$> menuItems.

(** [onClick={() => setActiveTab(item.id)}] and the special button's
    [setActiveTab('special')]: the value passed to the parent. *)
Definition click_item (item : menu_item) : string := id item.
Definition click_special : string := "special".

Definition is_active (b : menu_button) : Prop :=
  button_class b = "flex items-center w-full p-2 rounded-md " +:+ active_class.

#[export] Instance is_active_dec b : Decision (is_active b).
Proof. unfold is_active. apply _. Defined.

(** The keys of the highlighted buttons. *)
Definition active_keys (activeTab : string) : list string :=
  button_key <$> filter is_active (render activeTab).

(** ** Lemmas *)

Lemma is_active_button_of t item : is_active (button_of t item) <-> t = id item.
Proof.
  unfold is_active, button_of; simpl. case_bool_decide; [done|].
  split; [|done]. intros Hc%String.app_inj. by vm_compute in Hc.
Qed.

Lemma filter_unique_key {A} (f : A -> string) (t : string) (l : list A) :
  NoDup (f <$> l) ->
  f <$> filter (fun x => t = f x) l = if decide (t ∈ f <$> l) then [t] else [].
Proof.
  induction l as [|x l IH]; intros Hnd; [done|].
  rewrite fmap_cons in Hnd |- *. apply list.NoDup_cons in Hnd as [Hx Hnd].
  rewrite filter_cons. destruct (decide (t = f x)) as [->|Ht].
  - rewrite fmap_cons, IH by done. rewrite decide_False by done.
    rewrite decide_True; [done|]. apply elem_of_cons. by left.
  - rewrite IH by done. destruct (decide (t ∈ f <$> l)) as [Hin|Hin].
    + rewrite decide_True; [done|]. apply elem_of_cons. by right.
    + rewrite decide_False; [done|]. intros [?|?]%elem_of_cons; [congruence|done].
Qed.

Lemma active_keys_spec t :
  active_keys t = if decide (t ∈ id <$> menuItems) then [t] else [].
Proof.
  unfold active_keys, render. rewrite <-filter_unique_key by (apply (bool_decide_unpack _); vm_compute; reflexivity).
  rewrite filter_fmap_comm, <-list_fmap_compose.
  by rewrite (list_filter_iff _ (fun x => t = id x)) by (intros; apply is_active_button_of).
Qed.

(** C22: the menu highlights exactly the button of the tab last chosen
    in it: clicking a menu item highlights that item alone; the Special
    button, whose id is in no menu item, leaves none highlighted. *)
Theorem click_highlights item :
  item ∈ menuItems ->
  active_keys (click_item item) = [id item] /\ active_keys click_special = [].
Proof.
  intros Hi. rewrite !active_keys_spec. split.
  - rewrite decide_True; [done|]. by apply list_elem_of_fmap_2.
  - rewrite decide_False; [done|]. apply (bool_decide_unpack _). vm_compute. reflexivity.
Qed.

Lemma click_highlights_witness :
  active_keys (click_item (mkItem "inbox" "Inbox" Inbox)) = [id (mkItem "inbox" "Inbox" Inbox)]
  /\ active_keys click_special = [].
Proof. apply click_highlights. vm_compute. right; left. Defined.

End Sidebar.
