(* ===== verification/Dashboard.v ===== *)
(** * The two components that resolve the signed-in user's name

    TopNav.jsx and Leaderboard.jsx each query [registered_trackies] for
    the signed-in user's row and apply [name || 'User'] to it. This file
    relates the two state machines: given the same backend answers,
    the name in the header and the name the leaderboard marks agree. *)

From S2P Require Import Prelude JsCore Supabase ArraySort Ranking LeaderboardPage TopNav.

Module Dashboard.

(** The Leaderboard's view of the row TopNav reads: the same row
    ([select('name')] instead of [select('name, streak')]). *)
Definition profile_of (r : TopNav.row_response) : LeaderboardPage.profile_response :=
  match r with
  | QOk d => QOk (d ≫= TopNav.details_name)
  | QError => QError
  | QThrows => QThrows
  end.

Section WithEngine.
Context `{ArraySort}.

(** C23: for every answer of getUser and of the user's row, the name
    TopNav shows and the [userName] the Leaderboard marks rows with are
    the same once both fetches have settled. *)
Theorem header_and_leaderboard_agree ra rr :
  exists s1 s2,
    LeaderboardPage.run LeaderboardPage.mount
      (LeaderboardPage.EvAuth ra
       :: if ra is AuthUser _ then [LeaderboardPage.EvProfile (profile_of rr)] else [])
      = Some s1
    /\ TopNav.run TopNav.mount
      (TopNav.EvAuth ra :: if ra is AuthUser _ then [TopNav.EvRow rr] else [])
      = Some s2
    /\ LeaderboardPage.userName s1 = TopNav.userName s2.
Proof.
  destruct ra as [| |uid|]; try (by do 2 eexists).
  destruct rr as [|d|]; try (by do 2 eexists).
  do 2 eexists. split_and!; [reflexivity|reflexivity|]. cbn -[js_or_str].
  unfold LeaderboardPage.setUserName; simpl.
  rewrite bool_decide_false by apply js_or_str_User. by destruct d.
Qed.

End WithEngine.

End Dashboard.
